(** * Verification of the reaction-to-pin pipeline of matrix-pinbot

    Shallow embedding of [src/pinbot/callbacks.py] (class [Callbacks]).

    - A Python [str] is a list of Unicode code points ([pystr]); ASCII
      literals of the source are written with [lit].
    - The JSON metadata of an event ([event.source]) is [json]; a Python
      dict is an association list, [.get] is [py_get].
    - The handlers run in a small monad [M] of our own: it reads the bot
      configuration and the answers of the matrix client ([Env]), threads
      the mutable attributes [synced] and [pinned] of the [Callbacks]
      object, records the calls made to the client ([action]) and may raise
      a Python exception ([exn]). *)

From Stdlib Require Import String Ascii List Bool ZArith Lia.
Import ListNotations.
Open Scope Z_scope.

(* ------------------------------------------------------------------ *)
(** ** Python strings *)

Definition pystr := list Z.

(** ASCII literal of the source as a sequence of code points. *)
Fixpoint lit (s : string) : pystr :=
  match s with
  | EmptyString => []
  | String c r => Z.of_nat (nat_of_ascii c) :: lit r
  end.

Definition nl : pystr := [10].
Definition dq : pystr := [34].

Definition pystr_eqb (a b : pystr) : bool := if list_eq_dec Z.eq_dec a b then true else false.

(** [for c in s]: a Python string iterates over its characters, each a
    string of length one. *)
Definition py_chars (s : pystr) : list pystr := map (fun c => [c]) s.

(** [sep.join(xs)] *)
Fixpoint py_join (sep : pystr) (xs : list pystr) : pystr :=
  match xs with
  | [] => []
  | [x] => x
  | x :: r => x ++ sep ++ py_join sep r
  end.

(** [str.splitlines]-like split on line feeds ([s.split('\n')]). *)
Fixpoint split_nl_aux (cur : pystr) (s : pystr) : list pystr :=
  match s with
  | [] => [rev cur]
  | c :: r => if Z.eqb c 10 then rev cur :: split_nl_aux [] r
              else split_nl_aux (c :: cur) r
  end.
Definition split_nl (s : pystr) : list pystr := split_nl_aux [] s.

(** [needle in hay] for strings. *)
Fixpoint is_prefix (p s : pystr) : bool :=
  match p, s with
  | [], _ => true
  | _, [] => false
  | a :: p', b :: s' => Z.eqb a b && is_prefix p' s'
  end.
Fixpoint is_infix (p s : pystr) : bool :=
  match s with
  | [] => is_prefix p s
  | _ :: s' => is_prefix p s || is_infix p s'
  end.

(** [hay.count(needle)] for a non-empty needle (non-overlapping). *)
Fixpoint py_count_fuel (fuel : nat) (p s : pystr) : nat :=
  match fuel with
  | O => O
  | S f =>
      match s with
      | [] => O
      | _ :: s' => if is_prefix p s then S (py_count_fuel f p (skipn (length p) s))
                   else py_count_fuel f p s'
      end
  end.
Definition py_count (p s : pystr) : nat := py_count_fuel (S (length s)) p s.

(* ------------------------------------------------------------------ *)
(** ** Python exceptions and JSON values *)

Inductive exn := AttributeError | IndexError | TypeError.

#[local] Set Warnings "-register-all".

Inductive json :=
| JNull
| JBool (b : bool)
| JNum (z : Z)
| JStr (s : pystr)
| JList (l : list json)
| JObj (kvs : list (pystr * json)).

(** A dict's key lookup (keys of a dict are distinct). *)
Fixpoint dict_lookup (k : pystr) (kvs : list (pystr * json)) : option json :=
  match kvs with
  | [] => None
  | (k', v) :: r => if pystr_eqb k k' then Some v else dict_lookup k r
  end.

(** [v.get(k, d)]: only a dict has a [get] method. *)
Definition py_get (v : json) (k : pystr) (d : json) : exn + json :=
  match v with
  | JObj kvs => inr (match dict_lookup k kvs with Some x => x | None => d end)
  | _ => inl AttributeError
  end.

(** Truth value of a JSON value in Python ([if x:]). *)
Definition py_truthy (v : json) : bool :=
  match v with
  | JNull => false
  | JBool b => b
  | JNum z => negb (Z.eqb z 0)
  | JStr s => negb (Nat.eqb (length s) 0)
  | JList l => negb (Nat.eqb (length l) 0)
  | JObj kvs => negb (Nat.eqb (length kvs) 0)
  end.

(** [v == "..."] for a JSON value against a string. *)
Definition py_eq_str (v : json) (s : pystr) : bool :=
  match v with JStr s' => pystr_eqb s' s | _ => false end.

(** Equality of hashable values ([True == 1] in Python). *)
Definition py_eq (a b : json) : bool :=
  match a, b with
  | JNull, JNull => true
  | JBool x, JBool y => Bool.eqb x y
  | JNum x, JNum y => Z.eqb x y
  | JBool x, JNum y | JNum y, JBool x => Z.eqb y (if x then 1 else 0)
  | JStr x, JStr y => pystr_eqb x y
  | _, _ => false
  end.

Definition hashable (v : json) : bool :=
  match v with JList _ | JObj _ => false | _ => true end.

(** [x in s] and [s.add(x)] for a Python [set]. *)
Definition py_in (x : json) (s : list json) : exn + bool :=
  if hashable x then inr (existsb (py_eq x) s) else inl TypeError.

Definition py_set_add (x : json) (s : list json) : exn + list json :=
  if hashable x then inr (if existsb (py_eq x) s then s else s ++ [x])
  else inl TypeError.

(** [str(x)] of the scalar values an event id can be (the fuel covers the
    integers of canonical JSON, below 2^53). *)
Fixpoint digits_fuel (fuel : nat) (n : Z) (acc : pystr) : pystr :=
  match fuel with
  | O => acc
  | S f => let acc' := (48 + n mod 10) :: acc in
           if Z.ltb n 10 then acc' else digits_fuel f (n / 10) acc'
  end.
Definition py_str_int (z : Z) : pystr :=
  if Z.ltb z 0 then lit "-" ++ digits_fuel 64 (- z) []
  else digits_fuel 64 z [].

Definition py_str (v : json) : pystr :=
  match v with
  | JNull => lit "None"
  | JBool true => lit "True"
  | JBool false => lit "False"
  | JNum z => py_str_int z
  | JStr s => s
  (* a list or dict id raises [TypeError] at [in self.pinned] before any
     formatting, so these two cases are never reached *)
  | JList _ => lit "[...]"
  | JObj _ => lit "{...}"
  end.

(* ------------------------------------------------------------------ *)
(** ** Objects of the matrix client (nio) *)

Record MatrixRoom := { room_id : pystr }.

(** [UnknownEvent]: [event.type], [event.sender] and the raw event dict
    [event.source]. *)
Record UnknownEvent := { ev_type : pystr; ev_sender : pystr;
                         source : list (pystr * json) }.

Record InviteMemberEvent := { inv_sender : pystr }.
Record MegolmEvent := { megolm_event_id : pystr }.

(** An attribute of an event object: missing, [None] or a string. *)
Inductive attr := NoAttr | AttrNone | AttrStr (s : pystr).

(** [event_response.event]: an undecryptable [MegolmEvent] or an event with
    a [sender] and possibly [body] and [formatted_body] attributes. *)
Inductive fetched_event :=
| FMegolm
| FEvent (sender : pystr) (body : attr) (formatted_body : attr).

Inductive get_event_response :=
| RoomGetEventError
| RoomGetEventResponse (event : fetched_event).

Inductive join_result := JoinResponse | JoinError (message : pystr).
Inductive send_response := RoomSendResponse | RoomSendError.

(** The content dict passed to [room_send]. *)
Record send_content := { c_msgtype : pystr; c_body : pystr;
                         c_format : pystr; c_formatted_body : pystr }.

(** Calls to the client and to [asyncio.sleep], with what they returned. *)
Inductive action :=
| AJoin (room : pystr) (result : join_result)
| ASleep (secs : Z)
| AGetEvent (room : pystr) (event_id : json)
| ASend (room : pystr) (message_type : pystr) (content : send_content)
        (result : send_response).

(** [self.config]: the fields this file reads. *)
Record Config := { pins_room : pystr; user_id : pystr }.

(** The answers of the client; the [n]-th join and the [n]-th send may
    answer differently. A fetch answers by room and event id only, so within
    one callback run it is fixed; statements about several callback runs
    give each run a client of its own. *)
Record World := {
  w_join : nat -> pystr -> join_result;
  w_get_event : pystr -> json -> get_event_response;
  w_room_send : nat -> pystr -> send_content -> send_response }.

(** [make_pill] lives in [pinbot.chat_functions]; it is a parameter here. *)
Record Env := { cfg : Config; world : World; make_pill : pystr -> pystr }.

(** The mutable attributes of [Callbacks]: [self.synced], [self.pinned]. *)
Record Callbacks := { synced : bool; pinned : list json }.

(** [Callbacks.__init__] *)
Definition init_callbacks : Callbacks := {| synced := false; pinned := [] |}.

Record Mach := { st : Callbacks; trace : list action }.

(* ------------------------------------------------------------------ *)
(** ** The handler monad *)

Definition M (A : Type) := Env -> Mach -> (exn + A) * Mach.

Definition ret {A} (a : A) : M A := fun _ m => (inr a, m).
Definition bind {A B} (c : M A) (k : A -> M B) : M B :=
  fun e m => match c e m with
             | (inr a, m') => k a e m'
             | (inl x, m') => (inl x, m')
             end.
Definition lift {A} (r : exn + A) : M A := fun _ m => (r, m).
Definition ask : M Env := fun e m => (inr e, m).
Definition get_st : M Callbacks := fun _ m => (inr (st m), m).
Definition put_st (s : Callbacks) : M unit :=
  fun _ m => (inr tt, {| st := s; trace := trace m |}).
Definition emit (a : action) (m : Mach) : Mach :=
  {| st := st m; trace := trace m ++ [a] |}.

Notation "x <- c ;; k" := (bind c (fun x => k))
  (at level 61, c at next level, right associativity).
Notation "c ;; k" := (bind c (fun _ => k))
  (at level 61, right associativity).

Definition is_join (a : action) : bool := match a with AJoin _ _ => true | _ => false end.
Definition is_send (a : action) : bool := match a with ASend _ _ _ _ => true | _ => false end.
Definition is_sleep (a : action) : bool := match a with ASleep _ => true | _ => false end.
Definition is_fetch (a : action) : bool := match a with AGetEvent _ _ => true | _ => false end.

Definition sends (tr : list action) : nat := length (filter is_send tr).

(** [await self.client.join(room_id)] *)
Definition client_join (room : pystr) : M join_result :=
  fun e m => let r := w_join (world e) (length (filter is_join (trace m))) room in
             (inr r, emit (AJoin room r) m).

(** [await self.client.room_get_event(room_id, event_id)] *)
Definition room_get_event (room : pystr) (id : json) : M get_event_response :=
  fun e m => (inr (w_get_event (world e) room id), emit (AGetEvent room id) m).

(** [await self.client.room_send(room, message_type, content, None, False)] *)
Definition room_send (room ty : pystr) (c : send_content) : M send_response :=
  fun e m => let r := w_room_send (world e) (sends (trace m)) room c in
             (inr r, emit (ASend room ty c r) m).

(** [await asyncio.sleep(secs)] *)
Definition sleep (secs : Z) : M unit := fun _ m => (inr tt, emit (ASleep secs) m).

(* ------------------------------------------------------------------ *)
(** ** [Callbacks] *)

Definition sbind {A B} (r : exn + A) (k : A -> exn + B) : exn + B :=
  match r with inl x => inl x | inr a => k a end.

(** [event.source.get("content", {}).get("m.relates_to", {})] *)
Definition relation_dict_of (src : list (pystr * json)) : exn + json :=
  sbind (py_get (JObj src) (lit "content") (JObj []))
        (fun c => py_get c (lit "m.relates_to") (JObj [])).

(** [event.source.get("content", {}).get("m.relates_to", {}).get("key")] *)
Definition reaction_key (src : list (pystr * json)) : exn + json :=
  sbind (relation_dict_of src) (fun r => py_get r (lit "key") JNull).

(** The literal compared with the reaction key at line 111: the four code
    points U+00F0 U+0178 U+201C U+0152 ("ðŸ“Œ", the UTF-8 bytes of the
    pushpin read as cp1252). *)
Definition pin_emoji : pystr := [240; 376; 8220; 338].

(** The pushpin emoji U+1F4CC itself. *)
Definition pushpin : pystr := [128204].

(** [x.attr] where the value must be a string for what follows. *)
Definition attr_str (a : attr) : exn + pystr :=
  match a with AttrStr s => inr s | _ => inl AttributeError end.

(** [s[0]] *)
Definition py_index0 (s : pystr) : exn + pystr :=
  match s with c :: _ => inr [c] | [] => inl IndexError end.

(** [fallback_body = reacted_to_event.body.join('\n> ')] (line 124). *)
Definition fallback_body_of (body : pystr) : pystr :=
  py_join body (py_chars (nl ++ lit "> ")).

(** The plain-text [body] f-string (lines 125-131). *)
Definition compose_body (sender0 fallback_body : pystr) : pystr :=
  nl ++ lit "> " ++ sender0 ++ lit " " ++ fallback_body ++ nl
  ++ nl
  ++ lit "Pinned" ++ nl.

(** The [formatted] f-string (lines 136-148). *)
Definition compose_formatted (room_slug event_slug pill quote_body : pystr) : pystr :=
  nl ++ lit "<mx-reply>" ++ nl
  ++ lit "  <blockquote>" ++ nl
  ++ lit "    <a href=" ++ dq ++ lit "https://matrix.to/#/" ++ room_slug ++ lit "/"
     ++ event_slug ++ dq ++ lit ">Pinned</a>" ++ nl
  ++ lit "    " ++ pill ++ nl
  ++ lit "    <br />" ++ nl
  ++ lit "    <!-- This is where the related event's HTML would be. -->" ++ nl
  ++ lit "    " ++ quote_body ++ nl
  ++ lit "  </blockquote>" ++ nl
  ++ lit "</mx-reply>" ++ nl.

(** [Callbacks._reaction] (lines 68-160). *)
Definition _reaction (room : MatrixRoom) (event : UnknownEvent) (reacted_to_id : json)
  : M unit :=
  s <- get_st ;;
  if negb (synced s) then ret tt else
  env <- ask ;;
  if pystr_eqb (room_id room) (pins_room (cfg env)) then ret tt else
  event_response <- room_get_event (room_id room) reacted_to_id ;;
  match event_response with
  | RoomGetEventError => ret tt
  | RoomGetEventResponse FMegolm => ret tt
  | RoomGetEventResponse (FEvent sender ebody eformatted) =>
      if pystr_eqb sender (user_id (cfg env)) then ret tt else
      reaction_emoji <- lift (reaction_key (source event)) ;;
      if negb (py_eq_str reaction_emoji pin_emoji) then ret tt else
      s1 <- get_st ;;
      already <- lift (py_in reacted_to_id (pinned s1)) ;;
      if already then ret tt else
      let pinned_sender_pill := make_pill env sender in
      b <- lift (attr_str ebody) ;;
      let fallback_body := fallback_body_of b in
      sender0 <- lift (py_index0 sender) ;;
      let body := compose_body sender0 fallback_body in
      quote_body <- lift (match eformatted with
                          | NoAttr => inl AttributeError
                          | AttrNone => inr b
                          | AttrStr f => inr f
                          end) ;;
      let formatted := compose_formatted (room_id room) (py_str reacted_to_id)
                         pinned_sender_pill quote_body in
      room_send (pins_room (cfg env)) (lit "m.room.message")
        {| c_msgtype := lit "m.text"; c_body := body;
           c_format := lit "org.matrix.custom.html"; c_formatted_body := formatted |} ;;
      s2 <- get_st ;;
      p <- lift (py_set_add reacted_to_id (pinned s2)) ;;
      put_st {| synced := synced s2; pinned := p |}
  end.

(** [Callbacks.unknown] (lines 190-211). *)
Definition unknown (room : MatrixRoom) (event : UnknownEvent) : M unit :=
  if pystr_eqb (ev_type event) (lit "m.reaction") then
    relation_dict <- lift (relation_dict_of (source event)) ;;
    reacted_to <- lift (py_get relation_dict (lit "event_id") JNull) ;;
    if py_truthy reacted_to then
      rel_type <- lift (py_get relation_dict (lit "rel_type") JNull) ;;
      if py_eq_str rel_type (lit "m.annotation") then _reaction room event reacted_to
      else ret tt
    else ret tt
  else ret tt.

(** The [for attempt in range(3)] loop of [Callbacks.invite]; [attempts]
    is the number of iterations left. *)
Fixpoint join_loop (room : pystr) (attempts : nat) : M unit :=
  match attempts with
  | O => ret tt
  | S n =>
      result <- client_join room ;;
      match result with
      | JoinError _ => sleep 1 ;; join_loop room n
      | JoinResponse => ret tt
      end
  end.

(** [Callbacks.invite] (lines 40-66). *)
Definition invite (room : MatrixRoom) (event : InviteMemberEvent) : M unit :=
  join_loop (room_id room) 3.

(** [Callbacks.decryption_failure] (lines 162-188): logging only. *)
Definition decryption_failure (room : MatrixRoom) (event : MegolmEvent) : M unit :=
  ret tt.

(** [Callbacks.sync] (lines 213-215). *)
Definition sync : M unit :=
  s <- get_st ;;
  put_st {| synced := true; pinned := pinned s |}.

(** The callbacks of the class, one per kind of incoming event. *)
Inductive incoming :=
| Invite (room : MatrixRoom) (event : InviteMemberEvent)
| Unknown (room : MatrixRoom) (event : UnknownEvent)
| DecryptionFailure (room : MatrixRoom) (event : MegolmEvent)
| Sync.

Definition handle (i : incoming) : M unit :=
  match i with
  | Invite r e => invite r e
  | Unknown r e => unknown r e
  | DecryptionFailure r e => decryption_failure r e
  | Sync => sync
  end.

(** Modelled from the spec: [make_pill] of [pinbot.chat_functions] (not in
    the sources), "an identifier pill for the original sender"; a link to
    the user's matrix.to page. *)
Definition spec_make_pill (user : pystr) : pystr :=
  lit "<a href=" ++ dq ++ lit "https://matrix.to/#/" ++ user ++ dq ++ lit ">"
  ++ user ++ lit "</a>".

(* ------------------------------------------------------------------ *)
(** ** Auxiliary notions used by the statements *)

(** [relation_dict.get("event_id")]: the target id [unknown] passes on. *)
Definition target_of (src : list (pystr * json)) : exn + json :=
  sbind (relation_dict_of src) (fun r => py_get r (lit "event_id") JNull).

(** Seconds slept in a trace. *)
Definition total_sleep (tr : list action) : Z :=
  fold_right (fun a acc => match a with ASleep s => s + acc | _ => acc end) 0 tr.

(** Trace of failed join attempts, each followed by its one-second sleep. *)
Definition failed_rounds (room : pystr) (msgs : list pystr) : list action :=
  flat_map (fun msg => [AJoin room (JoinError msg); ASleep 1]) msgs.

(** The reaction metadata is malformed only by absent keys: no content, no
    relation dict, a falsy (absent or empty) target id, no relation kind,
    or no emoji key. *)
Definition get_or_none (k : pystr) (kvs : list (pystr * json)) : json :=
  match dict_lookup k kvs with Some v => v | None => JNull end.

Definition absent_keys_only (src : list (pystr * json)) : Prop :=
  dict_lookup (lit "content") src = None \/
  exists c, dict_lookup (lit "content") src = Some (JObj c) /\
    (dict_lookup (lit "m.relates_to") c = None \/
     exists r, dict_lookup (lit "m.relates_to") c = Some (JObj r) /\
       (py_truthy (get_or_none (lit "event_id") r) = false \/
        dict_lookup (lit "rel_type") r = None \/
        dict_lookup (lit "key") r = None)).

(** Properties the spec asks of the quoted plain text: every line of the
    original body appears right after a quote marker, and the quote marker
    occurs once per line. *)
Definition every_line_quoted (original out : pystr) : bool :=
  forallb (fun l => is_infix (lit "> " ++ l) out) (split_nl original).

Definition marker_count_matches (original out : pystr) : bool :=
  Nat.eqb (py_count (lit "> ") out) (length (split_nl original)).

(* ------------------------------------------------------------------ *)
(** ** Concrete inputs *)

Module Scenario.

Definition config0 : Config :=
  {| pins_room := lit "!pins:example.org"; user_id := lit "@pinbot:example.org" |}.

Definition r3 : MatrixRoom := {| room_id := lit "!r3:example.org" |}.
Definition pins : MatrixRoom := {| room_id := lit "!pins:example.org" |}.
Definition u1 : pystr := lit "@u1:example.org".
Definition e1 : json := JStr (lit "$e1").
Definition thumbs_up : pystr := [128077].

Definition relation (key : pystr) : json :=
  JObj [(lit "event_id", e1); (lit "rel_type", JStr (lit "m.annotation"));
        (lit "key", JStr key)].

Definition reaction_with (rel : json) : UnknownEvent :=
  {| ev_type := lit "m.reaction"; ev_sender := lit "@u2:example.org";
     source := [(lit "event_id", JStr (lit "$r1"));
                (lit "content", JObj [(lit "m.relates_to", rel)])] |}.

Definition reaction (key : pystr) : UnknownEvent := reaction_with (relation key).

(** The client: [E1] by [U1] with the given body and [formatted_body]
    attribute, and fixed answers to sends and joins. *)
Definition world_of (body formatted : attr) (sent : send_response)
  (join : nat -> join_result) : World :=
  {| w_join := fun n _ => join n;
     w_get_event := fun _ _ => RoomGetEventResponse (FEvent u1 body formatted);
     w_room_send := fun _ _ _ => sent |}.

Definition env_of (w : World) : Env :=
  {| cfg := config0; world := w; make_pill := spec_make_pill |}.

Definition text_env (body : pystr) (sent : send_response) : Env :=
  env_of (world_of (AttrStr body) AttrNone sent (fun _ => JoinResponse)).

(** A client whose every fetch fails. *)
Definition fetch_fails_env : Env :=
  {| cfg := config0;
     world := {| w_join := fun _ _ => JoinResponse;
                 w_get_event := fun _ _ => RoomGetEventError;
                 w_room_send := fun _ _ _ => RoomSendResponse |};
     make_pill := spec_make_pill |}.

(** Joins that fail [k] times, then succeed. *)
Definition join_fails (k : nat) (n : nat) : join_result :=
  if Nat.ltb n k then JoinError (lit "busy") else JoinResponse.

Definition join_env (k : nat) : Env :=
  env_of (world_of (AttrStr []) AttrNone RoomSendResponse (join_fails k)).

Definition fresh : Mach := {| st := init_callbacks; trace := [] |}.
Definition live : Mach := {| st := {| synced := true; pinned := [] |}; trace := [] |}.

(** Plain text and formatted body of the sends in a trace. *)
Definition sent_bodies (tr : list action) : list pystr :=
  flat_map (fun a => match a with ASend _ _ c _ => [c_body c] | _ => [] end) tr.
Definition sent_formatted (tr : list action) : list pystr :=
  flat_map (fun a => match a with ASend _ _ c _ => [c_formatted_body c] | _ => [] end) tr.

End Scenario.

(* ------------------------------------------------------------------ *)
(** ** Lemmas about the Python primitives and [_reaction] *)

Lemma sends_app a b : sends (a ++ b) = (sends a + sends b)%nat.
Proof. unfold sends. now rewrite filter_app, length_app. Qed.

Lemma py_eq_refl x : hashable x = true -> py_eq x x = true.
Proof.
  destruct x; simpl; intros H; try discriminate; auto.
  - apply Bool.eqb_reflx.
  - apply Z.eqb_refl.
  - unfold pystr_eqb. destruct (list_eq_dec Z.eq_dec s s); congruence.
Qed.

Lemma py_set_add_shape x s s' : py_set_add x s = inr s' -> s' = s \/ s' = s ++ [x].
Proof.
  unfold py_set_add. destruct (hashable x); [|discriminate].
  destruct (existsb (py_eq x) s); intros H; inversion H; auto.
Qed.

Lemma py_in_set_add x s b : py_in x s = inr b -> exists s', py_set_add x s = inr s'.
Proof. unfold py_in, py_set_add. destruct (hashable x); [eauto | discriminate]. Qed.

Lemma py_in_after_add x s s' : py_set_add x s = inr s' -> py_in x s' = inr true.
Proof.
  unfold py_set_add, py_in. destruct (hashable x) eqn:Hh; [|discriminate].
  destruct (existsb (py_eq x) s) eqn:He; intros H; inversion H; subst.
  - now rewrite He.
  - rewrite existsb_app. simpl. rewrite py_eq_refl by exact Hh.
  now rewrite orb_true_r.
Qed.

#[local] Arguments reaction_key : simpl never.
#[local] Arguments lit : simpl never.

Ltac run_in H :=
  unfold _reaction, bind, ret, lift, ask, get_st, put_st, room_get_event,
    room_send, emit in H; simpl in H;
  repeat match type of H with
         | context [match ?x with _ => _ end] =>
             let E := fresh "E" in destruct x eqn:E; simpl in H
         end.

Lemma reaction_effect room ev id e m r m' :
  _reaction room ev id e m = (r, m') ->
  synced (st m') = synced (st m) /\
  exists tr, trace m' = trace m ++ tr /\
    ((pinned (st m') = pinned (st m) /\ sends tr = 0%nat) \/
     (py_in id (pinned (st m)) = inr false /\
      py_set_add id (pinned (st m)) = inr (pinned (st m')) /\
      sends tr = 1%nat /\ r = inr tt)).
Proof.
  intros H. run_in H; inversion H; subst; clear H; simpl.
  all: try (split; [reflexivity|]).
  all: try match goal with
           | H1 : py_in ?x ?s = inr _, H2 : py_set_add ?x ?s = inl _ |- _ =>
               destruct (py_in_set_add _ _ _ H1) as [? Hc]; rewrite Hc in H2; discriminate
           end.
  all: first
    [ exists []; rewrite app_nil_r; split; [reflexivity | left; split; reflexivity]
    | eexists; split; [reflexivity | left; split; reflexivity]
    | eexists; split; [rewrite <- app_assoc; reflexivity | right; repeat split; auto]
    ].
Qed.

Lemma reaction_not_synced room ev id e m :
  synced (st m) = false -> _reaction room ev id e m = (inr tt, m).
Proof. intros H. unfold _reaction, bind, get_st. now rewrite H. Qed.

Lemma reaction_archive_room room ev id e m :
  synced (st m) = true -> pystr_eqb (room_id room) (pins_room (cfg e)) = true ->
  _reaction room ev id e m = (inr tt, m).
Proof.
  intros H1 H2. unfold _reaction, bind, get_st, ask. cbn -[pystr_eqb lit].
  rewrite H1. cbn -[pystr_eqb lit]. now rewrite H2.
Qed.

(** Past the two first checks, the first thing [_reaction] does is fetch. *)
Lemma reaction_fetch_first room ev id e m :
  synced (st m) = true -> pystr_eqb (room_id room) (pins_room (cfg e)) = false ->
  exists r m' tr, _reaction room ev id e m = (r, m') /\
    trace m' = trace m ++ AGetEvent (room_id room) id :: tr.
Proof.
  intros H1 H2. destruct (_reaction room ev id e m) as [r m'] eqn:H.
  exists r, m'. run_in H; inversion H; subst; clear H.
  all: try (exfalso; match goal with E : negb _ = true |- _ => rewrite H1 in E; discriminate end).
  all: try (exfalso; congruence).
  all: eexists; split; [reflexivity | ..].
  all: simpl; repeat rewrite <- app_assoc; reflexivity.
Qed.

(** A reaction whose key is not the literal of line 111 changes nothing
    but the fetch, and raises nothing. *)
Lemma reaction_key_not_pin room ev id e m k r m' :
  reaction_key (source ev) = inr k -> py_eq_str k pin_emoji = false ->
  _reaction room ev id e m = (r, m') ->
  r = inr tt /\ st m' = st m /\ sends (trace m') = sends (trace m).
Proof.
  intros Hk Hp H. run_in H; inversion H; subst; clear H.
  all: try (match goal with E : reaction_key _ = inl _ |- _ => congruence end).
  all: try (match goal with
            | E : reaction_key _ = inr ?j, E' : negb (py_eq_str ?j _) = false |- _ =>
                assert (j = k) by congruence; subst j; rewrite Hp in E'; discriminate
            end).
  all: split; [reflexivity | split; [reflexivity |]].
  all: simpl; unfold sends; rewrite ?filter_app, ?length_app; simpl; lia.
Qed.

(** A target already in [self.pinned] is never sent again. *)
Lemma reaction_pinned_no_send room ev id e m r m' :
  py_in id (pinned (st m)) = inr true ->
  _reaction room ev id e m = (r, m') ->
  st m' = st m /\ sends (trace m') = sends (trace m).
Proof.
  intros Hin H. destruct (reaction_effect _ _ _ _ _ _ _ H) as [Hs [tr [Htr [[Hp H0] | [Hf _]]]]].
  - split.
    + destruct (st m') as [s' p'], (st m) as [s p]; simpl in *; congruence.
    + rewrite Htr, sends_app, H0. lia.
  - congruence.
Qed.

(** [unknown] either returns without touching anything or hands the target
    id it read to [_reaction]. *)
Lemma unknown_effect room ev e m r m' :
  unknown room ev e m = (r, m') ->
  m' = m \/ exists id, target_of (source ev) = inr id /\ _reaction room ev id e m = (r, m').
Proof.
  unfold unknown, target_of, bind, lift, ret. intros H.
  destruct (pystr_eqb (ev_type ev) (lit "m.reaction")); [|inversion H; auto].
  destruct (relation_dict_of (source ev)) as [x|rd]; simpl in H; [inversion H; auto|].
  destruct (py_get rd (lit "event_id") JNull) as [x|id] eqn:Hid; [inversion H; auto|].
  destruct (py_truthy id); [|inversion H; auto].
  destruct (py_get rd (lit "rel_type") JNull) as [x|rt]; [inversion H; auto|].
  destruct (py_eq_str rt (lit "m.annotation")); [|inversion H; auto].
  right. exists id. auto.
Qed.

(** The join loop: failed attempts each followed by a one-second sleep,
    then a successful join or the end of the attempts. *)
Lemma join_loop_shape room n e m :
  exists msgs tail,
    join_loop room n e m =
      (inr tt, {| st := st m; trace := trace m ++ failed_rounds room msgs ++ tail |}) /\
    ((tail = [AJoin room JoinResponse] /\ (length msgs < n)%nat) \/
     (tail = [] /\ length msgs = n)).
Proof.
  revert m. induction n as [|n IH]; intros m.
  - exists [], []. simpl. rewrite app_nil_r. destruct m; auto.
  - simpl. unfold bind, client_join, sleep, ret.
    destruct (w_join (world e) (length (filter is_join (trace m))) room) as [|msg].
    + exists [], [AJoin room JoinResponse]. split; [reflexivity | left; split; [reflexivity | simpl; lia]].
    + destruct (IH (emit (ASleep 1) (emit (AJoin room (JoinError msg)) m)))
        as [msgs [tail [Hrun Hcase]]].
      exists (msg :: msgs), tail. rewrite Hrun. simpl. split.
      * repeat rewrite <- app_assoc. reflexivity.
      * destruct Hcase as [[-> Hl] | [-> Hl]]; [left | right]; split; auto; lia.
Qed.

Lemma total_sleep_rounds room msgs tail :
  (forall a, In a tail -> is_sleep a = false) ->
  total_sleep (failed_rounds room msgs ++ tail) = Z.of_nat (length msgs).
Proof.
  intros Ht. induction msgs as [|msg msgs IH].
  - simpl. induction tail as [|a tail IHt]; [reflexivity|].
    destruct a; try (apply IHt; intros b Hb; apply Ht; now right).
    specialize (Ht (ASleep secs) (or_introl eq_refl)). discriminate.
  - transitivity (1 + total_sleep (failed_rounds room msgs ++ tail)); [reflexivity|].
    rewrite IH. simpl length. lia.
Qed.

Lemma is_prefix_app p b : is_prefix p (p ++ b) = true.
Proof. induction p as [|c p IH]; simpl; auto. now rewrite Z.eqb_refl, IH. Qed.

Lemma is_infix_app p a b : is_infix p (a ++ p ++ b) = true.
Proof.
  induction a as [|c a IH]; simpl.
  - destruct (p ++ b) as [|d r] eqn:Hpb; simpl.
    + destruct p; [reflexivity | discriminate].
    + rewrite <- Hpb, is_prefix_app. reflexivity.
  - rewrite IH. apply orb_true_r.
Qed.

Lemma is_infix_app_l p a b : is_infix p b = true -> is_infix p (a ++ b) = true.
Proof. intros H. induction a as [|c a IH]; simpl; auto. rewrite IH. apply orb_true_r. Qed.

(** The [formatted] f-string embeds [quote_body] as it is. *)
Lemma compose_formatted_embeds room_slug event_slug pill quote_body :
  is_infix quote_body (compose_formatted room_slug event_slug pill quote_body) = true.
Proof.
  unfold compose_formatted. repeat rewrite <- app_assoc.
  repeat match goal with
         | |- is_infix ?q (?q ++ ?b) = true => exact (is_infix_app q [] b)
         | |- is_infix _ (_ ++ _) = true => apply is_infix_app_l
         end.
Qed.

Lemma pystr_eqb_refl a : pystr_eqb a a = true.
Proof. unfold pystr_eqb. destruct (list_eq_dec Z.eq_dec a a); congruence. Qed.

Ltac contra :=
  exfalso;
  match goal with
  | E : negb ?b = _, H : ?b = _ |- _ => rewrite H in E; discriminate
  | _ => congruence
  end.

(** [unknown] sends at most once; when it sends, its target is then in
    the ledger. *)
Lemma unknown_send_effect room ev e m r m' id :
  target_of (source ev) = inr id -> unknown room ev e m = (r, m') ->
  (st m' = st m /\ sends (trace m') = sends (trace m)) \/
  (sends (trace m') = S (sends (trace m)) /\ py_in id (pinned (st m')) = inr true).
Proof.
  intros Ht H. destruct (unknown_effect _ _ _ _ _ _ H) as [-> | [id' [Ht' Hr]]]; [now left|].
  rewrite Ht in Ht'. inversion Ht'; subst id'.
  destruct (reaction_effect _ _ _ _ _ _ _ Hr) as [Hs [tr [Htr [[Hp H0] | [_ [Hadd [H1 _]]]]]]].
  - left. split.
    + destruct (st m') as [s' p'], (st m) as [s0 p0]; simpl in *; congruence.
    + rewrite Htr, sends_app, H0. lia.
  - right. split.
    + rewrite Htr, sends_app, H1. lia.
    + exact (py_in_after_add _ _ _ Hadd).
Qed.

Lemma unknown_pinned_no_send room ev e m r m' id :
  target_of (source ev) = inr id -> py_in id (pinned (st m)) = inr true ->
  unknown room ev e m = (r, m') -> sends (trace m') = sends (trace m).
Proof.
  intros Ht Hin H. destruct (unknown_effect _ _ _ _ _ _ H) as [-> | [id' [Ht' Hr]]]; [reflexivity|].
  rewrite Ht in Ht'. inversion Ht'; subst id'.
  exact (proj2 (reaction_pinned_no_send _ _ _ _ _ _ _ Hin Hr)).
Qed.

(** Metadata malformed only by absent keys still yields a relation dict. *)
Lemma absent_keys_relation src :
  absent_keys_only src ->
  exists r, relation_dict_of src = inr (JObj r) /\
    (py_truthy (get_or_none (lit "event_id") r) = false \/
     dict_lookup (lit "rel_type") r = None \/
     dict_lookup (lit "key") r = None).
Proof.
  unfold absent_keys_only, relation_dict_of, sbind, py_get.
  intros [Hc | [c [Hc [Hr | [r [Hr Hcase]]]]]]; rewrite Hc.
  - exists []. split; [reflexivity | left; reflexivity].
  - rewrite Hr. exists []. split; [reflexivity | left; reflexivity].
  - rewrite Hr. exists r. auto.
Qed.

(* ------------------------------------------------------------------ *)
(** ** The claims *)

Import Scenario.

(** C1 (code at the failing input). A pin reaction with the pushpin
    U+1F4CC to [$e1] by [@u1:example.org] in [!r3:example.org], after sync,
    with an empty ledger: the code fetches [$e1] and stops, sending nothing
    and leaving the ledger empty, because line 111 compares the key with a
    four-character string. With the key equal to that string, one message
    is sent and [$e1] is recorded, but the plain-text body holds only the
    first character [@] of the sender, not [@u1:example.org]. *)
Lemma C1_code_at_failing_input :
  unknown r3 (reaction pushpin) (text_env (lit "hello") RoomSendResponse) live =
    (inr tt, {| st := {| synced := true; pinned := [] |};
                trace := [AGetEvent (room_id r3) e1] |}) /\
  let m' := snd (unknown r3 (reaction pin_emoji)
                   (text_env (lit "hello") RoomSendResponse) live) in
  sends (trace m') = 1%nat /\
  sent_bodies (trace m') =
    [nl ++ lit "> @ " ++ nl ++ lit "hello>hello " ++ nl ++ nl ++ lit "Pinned" ++ nl] /\
  existsb (is_infix u1) (sent_bodies (trace m')) = false /\
  pinned (st m') = [e1].
Proof. split; [reflexivity | vm_compute; repeat split]. Qed.

(** C2 (code at the failing input). For the two-line body [a\nb] the
    plain text sent is ["\n> @ \na\nb>a\nb \n\nPinned\n"]: neither line of
    the body follows a quote marker, and the marker [> ] occurs once for
    two lines. *)
Lemma C2_code_at_failing_input :
  let m' := snd (unknown r3 (reaction pin_emoji)
                   (text_env (lit "a" ++ nl ++ lit "b") RoomSendResponse) live) in
  sent_bodies (trace m') =
    [nl ++ lit "> @ " ++ nl ++ lit "a" ++ nl ++ lit "b>a" ++ nl ++ lit "b " ++ nl
     ++ nl ++ lit "Pinned" ++ nl] /\
  existsb (every_line_quoted (lit "a" ++ nl ++ lit "b")) (sent_bodies (trace m')) = false /\
  map (py_count (lit "> ")) (sent_bodies (trace m')) = [1%nat] /\
  length (split_nl (lit "a" ++ nl ++ lit "b")) = 2%nat.
Proof. vm_compute. repeat split. Qed.

(** C3 (code at the failing input). When [room_send] answers with an
    error, [$e1] is still added to the ledger: the result of the send is
    never inspected. *)
Lemma C3_code_at_failing_input :
  let m' := snd (unknown r3 (reaction pin_emoji)
                   (text_env (lit "hello") RoomSendError) live) in
  trace m' = [AGetEvent (room_id r3) e1;
              ASend (pins_room config0) (lit "m.room.message")
                {| c_msgtype := lit "m.text";
                   c_body := compose_body (lit "@") (fallback_body_of (lit "hello"));
                   c_format := lit "org.matrix.custom.html";
                   c_formatted_body := compose_formatted (room_id r3) (lit "$e1")
                                         (spec_make_pill u1) (lit "hello") |}
                RoomSendError] /\
  pinned (st m') = [e1].
Proof. vm_compute. split; reflexivity. Qed.

(** C6 (code at the failing input). For an original event without a rich
    body whose plain body is [<b>x</b>], whatever [make_pill] renders, the
    formatted body sent contains [<b>x</b>] unescaped. *)
Lemma C6_code_at_failing_input (pill : pystr -> pystr) :
  let env := {| cfg := config0;
                world := world_of (AttrStr (lit "<b>x</b>")) AttrNone RoomSendResponse
                           (fun _ => JoinResponse);
                make_pill := pill |} in
  sent_formatted (trace (snd (unknown r3 (reaction pin_emoji) env live))) =
    [compose_formatted (room_id r3) (lit "$e1") (pill u1) (lit "<b>x</b>")] /\
  is_infix (lit "<b>x</b>")
    (compose_formatted (room_id r3) (lit "$e1") (pill u1) (lit "<b>x</b>")) = true.
Proof. split; [reflexivity | apply compose_formatted_embeds]. Qed.

(** C4 (amended). [_reaction] checks, in this order and stopping at the
    first that applies: the sync flag, then whether the room is the pins
    room; otherwise it fetches the reacted-to event first, and only then
    stops on a fetch error, an undecryptable event or an event of the bot,
    and after these on a key other than the pin literal or a target already
    in the ledger. *)
Theorem C4_reaction_check_order e m room ev id :
  (synced (st m) = false -> _reaction room ev id e m = (inr tt, m)) /\
  (synced (st m) = true -> pystr_eqb (room_id room) (pins_room (cfg e)) = true ->
   _reaction room ev id e m = (inr tt, m)) /\
  (synced (st m) = true -> pystr_eqb (room_id room) (pins_room (cfg e)) = false ->
   exists r m' tr, _reaction room ev id e m = (r, m') /\
     trace m' = trace m ++ AGetEvent (room_id room) id :: tr) /\
  (synced (st m) = true -> pystr_eqb (room_id room) (pins_room (cfg e)) = false ->
   (w_get_event (world e) (room_id room) id = RoomGetEventError \/
    w_get_event (world e) (room_id room) id = RoomGetEventResponse FMegolm \/
    exists body fb, w_get_event (world e) (room_id room) id =
                    RoomGetEventResponse (FEvent (user_id (cfg e)) body fb)) ->
   _reaction room ev id e m = (inr tt, emit (AGetEvent (room_id room) id) m)) /\
  (forall sender body fb k,
   synced (st m) = true -> pystr_eqb (room_id room) (pins_room (cfg e)) = false ->
   w_get_event (world e) (room_id room) id = RoomGetEventResponse (FEvent sender body fb) ->
   pystr_eqb sender (user_id (cfg e)) = false ->
   reaction_key (source ev) = inr k ->
   (py_eq_str k pin_emoji = false \/ py_in id (pinned (st m)) = inr true) ->
   _reaction room ev id e m = (inr tt, emit (AGetEvent (room_id room) id) m)).
Proof.
  split; [apply reaction_not_synced|].
  split; [apply reaction_archive_room|].
  split; [apply reaction_fetch_first|].
  split.
  - intros H1 H2 Hf. destruct (_reaction room ev id e m) as [r m'] eqn:H.
    run_in H; inversion H; subst; clear H; unfold emit; try reflexivity.
    all: try contra.
    all: destruct Hf as [Hf | [Hf | [b [f Hf]]]]; try congruence.
    all: rewrite Hf in *; match goal with E : RoomGetEventResponse _ = _ |- _ =>
                                           inversion E; subst end.
    all: match goal with E : pystr_eqb ?a ?a = false |- _ =>
                           rewrite pystr_eqb_refl in E; discriminate end.
  - intros sender body fb k H1 H2 Hf Hs Hk Hc.
    destruct (_reaction room ev id e m) as [r m'] eqn:H.
    run_in H; inversion H; subst; clear H; unfold emit; try reflexivity.
    all: try contra.
    all: rewrite Hf in *; match goal with E : RoomGetEventResponse _ = _ |- _ =>
                                           inversion E; subst end; try contra.
    all: rewrite Hk in *; match goal with E : inr _ = inr _ |- _ =>
                                           inversion E; subst end.
    all: destruct Hc as [Hc | Hc]; contra.
Qed.

(** A witness of C4: after sync, a pin-literal reaction to [$e1], already
    in the ledger, is dropped once [$e1] has been fetched. *)
Lemma C4_witness :
  _reaction r3 (reaction pin_emoji) e1 (text_env (lit "hello") RoomSendResponse)
    {| st := {| synced := true; pinned := [e1] |}; trace := [] |} =
  (inr tt, {| st := {| synced := true; pinned := [e1] |};
              trace := [AGetEvent (room_id r3) e1] |}).
Proof.
  refine (proj2 (proj2 (proj2 (proj2 (C4_reaction_check_order
            (text_env (lit "hello") RoomSendResponse)
            {| st := {| synced := true; pinned := [e1] |}; trace := [] |}
            r3 (reaction pin_emoji) e1))))
            u1 (AttrStr (lit "hello")) AttrNone (JStr pin_emoji) _ _ _ _ _ _);
    try reflexivity.
  right. reflexivity.
Defined.

(** C4 is false as stated: after sync, in a room other than the pins
    room, a thumbs-up reaction, and a pin-literal reaction to a target
    already in the ledger, are both dropped only after the target has been
    fetched. *)
Lemma C4_counterexample :
  trace (snd (unknown r3 (reaction thumbs_up) (text_env (lit "hello") RoomSendResponse) live))
    = [AGetEvent (room_id r3) e1] /\
  trace (snd (unknown r3 (reaction pin_emoji) (text_env (lit "hello") RoomSendResponse)
                {| st := {| synced := true; pinned := [e1] |}; trace := [] |}))
    = [AGetEvent (room_id r3) e1].
Proof. split; reflexivity. Qed.

(** C5 (amended). Two reactions with the same target id, handled one
    after the other, produce at most one archive send between them; once
    the first has sent, the second finds the target in the ledger and
    sends nothing. The two calls see clients [env1] and [env2] of their
    own, so the second fetch of the target may answer differently from the
    first (a transient error, an event decrypted only later). *)
Theorem C5_at_most_one_send env1 env2 m room1 ev1 room2 ev2 id :
  target_of (source ev1) = inr id -> target_of (source ev2) = inr id ->
  let m1 := snd (unknown room1 ev1 env1 m) in
  let m2 := snd (unknown room2 ev2 env2 m1) in
  (sends (trace m2) <= S (sends (trace m)))%nat /\
  (sends (trace m1) = S (sends (trace m)) -> sends (trace m2) = sends (trace m1)).
Proof.
  intros T1 T2. cbv zeta.
  destruct (unknown room1 ev1 env1 m) as [r1 m1] eqn:H1. simpl.
  destruct (unknown room2 ev2 env2 m1) as [r2 m2] eqn:H2. simpl.
  destruct (unknown_send_effect _ _ _ _ _ _ _ T1 H1) as [[Hst Hs] | [Hs Hin]].
  - rewrite Hs. split; [|lia].
    destruct (unknown_send_effect _ _ _ _ _ _ _ T2 H2) as [[_ Hs2] | [Hs2 _]]; lia.
  - pose proof (unknown_pinned_no_send _ _ _ _ _ _ _ T2 Hin H2) as Hs2.
    split; lia.
Qed.

(** A witness of C5: the same pin-literal reaction to [$e1] delivered
    twice, the second time to a client whose fetch of [$e1] returns another
    body. *)
Lemma C5_witness :
  target_of (source (reaction pin_emoji)) = inr e1 /\
  let m1 := snd (unknown r3 (reaction pin_emoji) (text_env (lit "hello") RoomSendResponse) live) in
  let m2 := snd (unknown r3 (reaction pin_emoji) (text_env (lit "edited") RoomSendResponse) m1) in
  (sends (trace m2) <= S (sends (trace live)))%nat /\
  (sends (trace m1) = S (sends (trace live)) -> sends (trace m2) = sends (trace m1)).
Proof.
  split; [reflexivity|].
  exact (C5_at_most_one_send (text_env (lit "hello") RoomSendResponse)
           (text_env (lit "edited") RoomSendResponse) live
           r3 (reaction pin_emoji) r3 (reaction pin_emoji) e1 eq_refl eq_refl).
Defined.

(** C5 is false as stated: two pin reactions to [$e1] after sync, when the
    fetch of [$e1] fails, produce no archive send at all. *)
Lemma C5_counterexample :
  let m1 := snd (unknown r3 (reaction pushpin) fetch_fails_env live) in
  sends (trace (snd (unknown r3 (reaction pushpin) fetch_fails_env m1))) = 0%nat /\
  let m1' := snd (unknown r3 (reaction pin_emoji) fetch_fails_env live) in
  sends (trace (snd (unknown r3 (reaction pin_emoji) fetch_fails_env m1'))) = 0%nat.
Proof. split; reflexivity. Qed.

(** C7 (amended). [invite] tries to join at most three times, sleeps one
    second after every failed attempt (the third included), stops at the
    first successful join, and changes no state: the pauses total the
    number of failed attempts, at most three seconds. When the join fails
    twice and then succeeds, two one-second sleeps occur and the last join
    succeeds. *)
Theorem C7_invite_join_retry e m room ev :
  (exists msgs tail,
     invite room ev e m =
       (inr tt, {| st := st m;
                   trace := trace m ++ failed_rounds (room_id room) msgs ++ tail |}) /\
     ((tail = [AJoin (room_id room) JoinResponse] /\ (length msgs < 3)%nat) \/
      (tail = [] /\ length msgs = 3%nat)) /\
     total_sleep (failed_rounds (room_id room) msgs ++ tail) = Z.of_nat (length msgs) /\
     Z.of_nat (length msgs) <= 3) /\
  invite r3 {| inv_sender := u1 |} (join_env 2) fresh =
    (inr tt, {| st := init_callbacks;
                trace := [AJoin (room_id r3) (JoinError (lit "busy")); ASleep 1;
                          AJoin (room_id r3) (JoinError (lit "busy")); ASleep 1;
                          AJoin (room_id r3) JoinResponse] |}).
Proof.
  split; [|reflexivity].
  destruct (join_loop_shape (room_id room) 3 e m) as [msgs [tail [Hrun Hcase]]].
  exists msgs, tail. split; [exact Hrun|]. split; [exact Hcase|].
  split.
  - apply total_sleep_rounds.
    destruct Hcase as [[-> _] | [-> _]]; simpl; intros a Ha;
      [destruct Ha as [<- | []]; reflexivity | destruct Ha].
  - destruct Hcase as [[_ Hl] | [_ Hl]]; lia.
Qed.

(** C7 is false as stated: when all three joins fail, the handler sleeps
    three times, three seconds in total. *)
Lemma C7_counterexample :
  trace (snd (invite r3 {| inv_sender := u1 |} (join_env 3) fresh)) =
    [AJoin (room_id r3) (JoinError (lit "busy")); ASleep 1;
     AJoin (room_id r3) (JoinError (lit "busy")); ASleep 1;
     AJoin (room_id r3) (JoinError (lit "busy")); ASleep 1] /\
  total_sleep (trace (snd (invite r3 {| inv_sender := u1 |} (join_env 3) fresh))) = 3.
Proof. split; reflexivity. Qed.

(** C8. Before sync, [_reaction] returns at once and [unknown] leaves the
    state and the trace as they were: no fetch, no send, no ledger change,
    nothing kept for later. *)
Theorem C8_not_synced_drops e m room ev id :
  synced (st m) = false ->
  _reaction room ev id e m = (inr tt, m) /\ snd (unknown room ev e m) = m.
Proof.
  intros Hs. split; [now apply reaction_not_synced|].
  destruct (unknown room ev e m) as [r m'] eqn:H. simpl.
  destruct (unknown_effect _ _ _ _ _ _ H) as [-> | [id' [_ Hr]]]; [reflexivity|].
  rewrite reaction_not_synced in Hr by exact Hs. now inversion Hr.
Qed.

(** A witness of C8: the pin-literal reaction to [$e1] on a fresh bot. *)
Lemma C8_witness :
  _reaction r3 (reaction pin_emoji) e1 (text_env (lit "hello") RoomSendResponse) fresh
    = (inr tt, fresh) /\
  snd (unknown r3 (reaction pin_emoji) (text_env (lit "hello") RoomSendResponse) fresh) = fresh.
Proof.
  exact (C8_not_synced_drops (text_env (lit "hello") RoomSendResponse) fresh r3
           (reaction pin_emoji) e1 eq_refl).
Defined.

(** C9 (amended). A reaction-shaped event whose metadata is malformed only
    by absent keys (no content, no relation dict, an absent or empty target
    id, no relation kind, no emoji key) is handled without an exception,
    leaves the state unchanged and sends nothing. *)
Theorem C9_absent_keys_no_send e m room ev :
  absent_keys_only (source ev) ->
  fst (unknown room ev e m) = inr tt /\
  st (snd (unknown room ev e m)) = st m /\
  sends (trace (snd (unknown room ev e m))) = sends (trace m).
Proof.
  intros Habs. destruct (absent_keys_relation _ Habs) as [r [Hrel Hcase]].
  destruct (unknown room ev e m) as [res m'] eqn:H. simpl.
  unfold unknown, bind, lift, ret in H.
  destruct (pystr_eqb (ev_type ev) (lit "m.reaction")); [|inversion H; auto].
  rewrite Hrel in H. unfold py_get at 1 in H. fold (get_or_none (lit "event_id") r) in H.
  destruct Hcase as [Ht | [Hrt | Hkey]].
  - rewrite Ht in H. inversion H; auto.
  - destruct (py_truthy (get_or_none (lit "event_id") r)); [|inversion H; auto].
    unfold py_get in H. rewrite Hrt in H. inversion H; auto.
  - destruct (py_truthy (get_or_none (lit "event_id") r)); [|inversion H; auto].
    unfold py_get in H.
    match type of H with
    | context [if py_eq_str ?a ?b then _ else _] => destruct (py_eq_str a b)
    end; [|inversion H; auto].
    assert (Hk : reaction_key (source ev) = inr JNull).
    { unfold reaction_key, sbind. rewrite Hrel. unfold py_get. now rewrite Hkey. }
    exact (reaction_key_not_pin _ _ _ _ _ _ _ _ Hk eq_refl H).
Qed.

(** A witness of C9: a reaction with no emoji key reaches [_reaction],
    which fetches the target and stops. *)
Lemma C9_witness :
  absent_keys_only (source (reaction_with
    (JObj [(lit "event_id", e1); (lit "rel_type", JStr (lit "m.annotation"))]))) /\
  let ev := reaction_with
    (JObj [(lit "event_id", e1); (lit "rel_type", JStr (lit "m.annotation"))]) in
  fst (unknown r3 ev (text_env (lit "hello") RoomSendResponse) live) = inr tt /\
  st (snd (unknown r3 ev (text_env (lit "hello") RoomSendResponse) live)) = st live /\
  sends (trace (snd (unknown r3 ev (text_env (lit "hello") RoomSendResponse) live)))
    = sends (trace live).
Proof.
  assert (Habs : absent_keys_only (source (reaction_with
    (JObj [(lit "event_id", e1); (lit "rel_type", JStr (lit "m.annotation"))])))).
  { right. eexists. split; [reflexivity|]. right. eexists. split; [reflexivity|].
    right. right. reflexivity. }
  split; [exact Habs|].
  exact (C9_absent_keys_no_send (text_env (lit "hello") RoomSendResponse) live r3 _ Habs).
Defined.

(** C9 is false as stated: a relation dict that is present but [null]
    makes [unknown] raise [AttributeError] ([None] has no [get]). *)
Lemma C9_counterexample :
  fst (unknown r3 (reaction_with JNull) (text_env (lit "hello") RoomSendResponse) live)
    = inl AttributeError.
Proof. reflexivity. Qed.

(** C10. [sync] only sets the sync flag to true; [unknown] (and through it
    [_reaction]) leaves the sync flag alone and either leaves the ledger
    as it was or appends the event's target id to it; [invite] and
    [decryption_failure] change no state. *)
Theorem C10_handlers_frame i e m :
  let m' := snd (handle i e m) in
  match i with
  | Sync => synced (st m') = true /\ pinned (st m') = pinned (st m)
  | Unknown _ ev =>
      synced (st m') = synced (st m) /\
      (pinned (st m') = pinned (st m) \/
       exists id, target_of (source ev) = inr id /\ pinned (st m') = pinned (st m) ++ [id])
  | _ => st m' = st m
  end.
Proof.
  cbv zeta. destruct i as [room ev | room ev | room ev |]; simpl.
  - unfold invite. destruct (join_loop_shape (room_id room) 3 e m) as [msgs [tail [Hrun _]]].
    now rewrite Hrun.
  - destruct (unknown room ev e m) as [r m'] eqn:H. simpl.
    destruct (unknown_effect _ _ _ _ _ _ H) as [-> | [id [Ht Hr]]]; [auto|].
    destruct (reaction_effect _ _ _ _ _ _ _ Hr) as [Hs [tr [_ [[Hp _] | [_ [Hadd _]]]]]].
    + auto.
    + split; [exact Hs|].
      destruct (py_set_add_shape _ _ _ Hadd) as [Heq | Heq]; [left | right]; eauto.
  - reflexivity.
  - split; reflexivity.
Qed.

(* ------------------------------------------------------------------ *)
(** ** Further properties of [Callbacks] *)

Lemma py_eq_str_true v s : py_eq_str v s = true -> v = JStr s.
Proof.
  destruct v; simpl; try discriminate.
  unfold pystr_eqb. destruct (list_eq_dec Z.eq_dec s0 s); congruence.
Qed.

Lemma py_set_add_fresh x s s' :
  py_in x s = inr false -> py_set_add x s = inr s' -> s' = s ++ [x].
Proof.
  unfold py_in, py_set_add. destruct (hashable x); [|discriminate].
  intros H1 H2. inversion H1 as [He]. rewrite He in H2. now inversion H2.
Qed.

Lemma sends_zero_no_send tr a : sends tr = 0%nat -> In a tr -> is_send a = false.
Proof.
  unfold sends. intros H Hin. destruct (is_send a) eqn:Ha; [|reflexivity].
  assert (In a (filter is_send tr)) by (apply filter_In; auto).
  destruct (filter is_send tr); [contradiction | discriminate].
Qed.

(** What a run of [_reaction] that sends has seen and done. *)
Lemma reaction_sent room ev id e m r m' :
  _reaction room ev id e m = (r, m') -> sends (trace m') <> sends (trace m) ->
  synced (st m) = true /\ pystr_eqb (room_id room) (pins_room (cfg e)) = false /\
  exists sender b fb res,
    w_get_event (world e) (room_id room) id =
      RoomGetEventResponse (FEvent sender (AttrStr b) fb) /\
    pystr_eqb sender (user_id (cfg e)) = false /\
    reaction_key (source ev) = inr (JStr pin_emoji) /\
    py_in id (pinned (st m)) = inr false /\
    sender <> [] /\ fb <> NoAttr /\
    trace m' = trace m ++
      [AGetEvent (room_id room) id;
       ASend (pins_room (cfg e)) (lit "m.room.message")
         {| c_msgtype := lit "m.text";
            c_body := compose_body (firstn 1 sender) (fallback_body_of b);
            c_format := lit "org.matrix.custom.html";
            c_formatted_body :=
              compose_formatted (room_id room) (py_str id) (make_pill e sender)
                (match fb with AttrStr f => f | _ => b end) |} res].
Proof.
  intros H Hne. run_in H; inversion H; subst; clear H.
  all: try (exfalso; apply Hne; cbn [trace]; rewrite ?sends_app; unfold sends; simpl; lia).
  all: try match goal with
           | H1 : py_in ?x ?s = inr _, H2 : py_set_add ?x ?s = inl _ |- _ =>
               destruct (py_in_set_add _ _ _ H1) as [? Hc]; rewrite Hc in H2; discriminate
           end.
  match goal with E : negb (synced _) = false |- _ =>
                     apply negb_false_iff in E end.
  split; [assumption | split; [reflexivity |]].
  match goal with
  | E : negb (py_eq_str ?j _) = false |- _ =>
      apply negb_false_iff, py_eq_str_true in E; subst j
  end.
  match goal with E : attr_str ?b = inr _ |- _ => destruct b; inversion E; subst end.
  match goal with E : py_index0 ?s = inr _ |- _ => destruct s; inversion E; subst end.
  do 4 eexists. split; [reflexivity |].
  destruct formatted_body; inversion E10; subst.
  all: repeat split; try assumption; try reflexivity; try discriminate.
  all: cbn [trace]; rewrite <- app_assoc; reflexivity.
Qed.

Lemma pystr_eqb_true a b : pystr_eqb a b = true -> a = b.
Proof. unfold pystr_eqb. destruct (list_eq_dec Z.eq_dec a b); congruence. Qed.

Lemma pystr_eqb_false a b : pystr_eqb a b = false -> a <> b.
Proof. intros H Hab. subst. now rewrite pystr_eqb_refl in H. Qed.

Lemma is_prefix_app_cancel a p s : is_prefix (a ++ p) (a ++ s) = is_prefix p s.
Proof. induction a as [|c a IH]; simpl; auto. now rewrite Z.eqb_refl. Qed.

Lemma is_infix_of_prefix p s : is_prefix p s = true -> is_infix p s = true.
Proof. destruct s; simpl; intros H; now rewrite ?H. Qed.

Lemma is_prefix_cancel a p s : is_prefix p s = true -> is_prefix (a ++ p) (a ++ s) = true.
Proof. intros H. now rewrite is_prefix_app_cancel. Qed.

Ltac prefix_solve :=
  repeat match goal with
         | |- is_prefix (?a ++ _) (?a ++ _) = true => apply (is_prefix_cancel a)
         end;
  match goal with
  | |- is_prefix ?q (?q ++ ?b) = true => exact (is_prefix_app q b)
  end.

Ltac infix_solve :=
  repeat rewrite <- app_assoc;
  repeat match goal with
         | |- is_infix _ _ = true => solve [apply is_infix_of_prefix; prefix_solve]
         | |- is_infix _ (_ ++ _) = true => apply is_infix_app_l
         end.

Lemma fallback_body_of_eq b : fallback_body_of b = nl ++ b ++ lit ">" ++ b ++ lit " ".
Proof. reflexivity. Qed.

Lemma sends_failed_rounds room msgs tail :
  (tail = [AJoin room JoinResponse] \/ tail = []) ->
  sends (failed_rounds room msgs ++ tail) = 0%nat.
Proof.
  intros Ht. rewrite sends_app. induction msgs as [|msg msgs IH]; simpl in *.
  - destruct Ht; subst; reflexivity.
  - exact IH.
Qed.

Lemma callbacks_eta (s s' : Callbacks) :
  synced s' = synced s -> pinned s' = pinned s -> s' = s.
Proof. destruct s, s'; simpl; congruence. Qed.

(** X1. [_reaction] sends only when the bot is synced, the reaction is not
    in the pins room, the fetch returned a decrypted event with a string
    body whose sender is not the bot, the emoji key is the literal of the
    source, and the target is not yet in the ledger. *)
Theorem reaction_send_requires room ev id e m :
  sends (trace (snd (_reaction room ev id e m))) <> sends (trace m) ->
  synced (st m) = true /\ room_id room <> pins_room (cfg e) /\
  exists sender b fb,
    w_get_event (world e) (room_id room) id =
      RoomGetEventResponse (FEvent sender (AttrStr b) fb) /\
    sender <> user_id (cfg e) /\
    reaction_key (source ev) = inr (JStr pin_emoji) /\
    py_in id (pinned (st m)) = inr false.
Proof.
  intros Hne. destruct (_reaction room ev id e m) as [r m'] eqn:H. simpl in Hne.
  destruct (reaction_sent _ _ _ _ _ _ _ H Hne)
    as [Hs [Hp [sender [b [fb [res [Hf [Hu [Hk [Hin _]]]]]]]]]].
  split; [exact Hs|]. split; [now apply pystr_eqb_false|].
  exists sender, b, fb. repeat split; auto. now apply pystr_eqb_false.
Qed.

Lemma reaction_send_requires_witness :
  sends (trace (snd (_reaction r3 (reaction pin_emoji) e1
                       (text_env (lit "hello") RoomSendResponse) live)))
    <> sends (trace live) /\
  synced (st live) = true /\ room_id r3 <> pins_room (cfg (text_env (lit "hello") RoomSendResponse)) /\
  exists sender b fb,
    w_get_event (world (text_env (lit "hello") RoomSendResponse)) (room_id r3) e1 =
      RoomGetEventResponse (FEvent sender (AttrStr b) fb) /\
    sender <> user_id (cfg (text_env (lit "hello") RoomSendResponse)) /\
    reaction_key (source (reaction pin_emoji)) = inr (JStr pin_emoji) /\
    py_in e1 (pinned (st live)) = inr false.
Proof.
  assert (H : sends (trace (snd (_reaction r3 (reaction pin_emoji) e1
                       (text_env (lit "hello") RoomSendResponse) live)))
              <> sends (trace live)) by (vm_compute; discriminate).
  split; [exact H | apply reaction_send_requires; exact H].
Defined.

(** X2. When [_reaction] sends, it appends the fetch and exactly one
    [m.room.message] to the pins room; the HTML part carries the matrix.to
    link to the room and target id, the sender's pill, and the original's
    [formatted_body] (its [body] when that is [None]); the plain part
    contains the original body and ends with the line [Pinned]. *)
Theorem reaction_sent_message room ev id e m :
  sends (trace (snd (_reaction room ev id e m))) <> sends (trace m) ->
  exists sender b fb c res,
    w_get_event (world e) (room_id room) id =
      RoomGetEventResponse (FEvent sender (AttrStr b) fb) /\
    trace (snd (_reaction room ev id e m)) =
      trace m ++ [AGetEvent (room_id room) id;
                  ASend (pins_room (cfg e)) (lit "m.room.message") c res] /\
    is_infix (lit "<a href=" ++ dq ++ lit "https://matrix.to/#/" ++ room_id room
              ++ lit "/" ++ py_str id ++ dq ++ lit ">Pinned</a>")
             (c_formatted_body c) = true /\
    is_infix (make_pill e sender) (c_formatted_body c) = true /\
    is_infix (match fb with AttrStr f => f | _ => b end) (c_formatted_body c) = true /\
    is_infix b (c_body c) = true /\
    (exists pre, c_body c = pre ++ nl ++ lit "Pinned" ++ nl).
Proof.
  intros Hne. destruct (_reaction room ev id e m) as [r m'] eqn:H. cbn [snd] in Hne |- *.
  destruct (reaction_sent _ _ _ _ _ _ _ H Hne)
    as [_ [_ [sender [b [fb [res [Hf [_ [_ [_ [_ [_ Htr]]]]]]]]]]]].
  eexists sender, b, fb, _, res. split; [exact Hf|]. split; [exact Htr|].
  cbn [c_formatted_body c_body].
  split; [|split; [|split; [|split]]].
  - unfold compose_formatted.
    replace (lit "    <a href=") with (lit "    " ++ lit "<a href=") by reflexivity.
    infix_solve.
  - unfold compose_formatted. infix_solve.
  - apply compose_formatted_embeds.
  - unfold compose_body. rewrite fallback_body_of_eq. infix_solve.
  - exists (nl ++ lit "> " ++ firstn 1 sender ++ lit " " ++ fallback_body_of b ++ nl).
    unfold compose_body. repeat rewrite <- app_assoc. reflexivity.
Qed.

Lemma reaction_sent_message_witness :
  sends (trace (snd (_reaction r3 (reaction pin_emoji) e1
                       (text_env (lit "hello") RoomSendResponse) live)))
    <> sends (trace live) /\
  exists sender b fb c res,
    w_get_event (world (text_env (lit "hello") RoomSendResponse)) (room_id r3) e1 =
      RoomGetEventResponse (FEvent sender (AttrStr b) fb) /\
    trace (snd (_reaction r3 (reaction pin_emoji) e1
                  (text_env (lit "hello") RoomSendResponse) live)) =
      trace live ++ [AGetEvent (room_id r3) e1;
                     ASend (pins_room (cfg (text_env (lit "hello") RoomSendResponse)))
                       (lit "m.room.message") c res] /\
    is_infix (lit "<a href=" ++ dq ++ lit "https://matrix.to/#/" ++ room_id r3
              ++ lit "/" ++ py_str e1 ++ dq ++ lit ">Pinned</a>")
             (c_formatted_body c) = true /\
    is_infix (make_pill (text_env (lit "hello") RoomSendResponse) sender)
             (c_formatted_body c) = true /\
    is_infix (match fb with AttrStr f => f | _ => b end) (c_formatted_body c) = true /\
    is_infix b (c_body c) = true /\
    (exists pre, c_body c = pre ++ nl ++ lit "Pinned" ++ nl).
Proof.
  assert (H : sends (trace (snd (_reaction r3 (reaction pin_emoji) e1
                       (text_env (lit "hello") RoomSendResponse) live)))
              <> sends (trace live)) by (vm_compute; discriminate).
  split; [exact H | apply reaction_sent_message; exact H].
Defined.

(** X3. The join of line 124 iterates over the three characters of
    ["\n> "]: for every body it yields a newline, the body, [">"], the body
    again and a space. *)
Theorem fallback_body_shape b :
  fallback_body_of b = nl ++ b ++ lit ">" ++ b ++ lit " ".
Proof. unfold fallback_body_of. reflexivity. Qed.

(** X4. A callback that raises has sent nothing and changed no state: every
    exception of [_reaction] comes before its send. *)
Theorem handle_raise_no_effect i e m x :
  fst (handle i e m) = inl x ->
  st (snd (handle i e m)) = st m /\ sends (trace (snd (handle i e m))) = sends (trace m).
Proof.
  destruct i as [room ev | room ev | room ev |]; simpl.
  - unfold invite. destruct (join_loop_shape (room_id room) 3 e m) as [msgs [tail [Hrun _]]].
    rewrite Hrun. discriminate.
  - destruct (unknown room ev e m) as [r m'] eqn:H. simpl. intros Hr. subst r.
    destruct (unknown_effect _ _ _ _ _ _ H) as [-> | [id [_ Hre]]]; [auto|].
    destruct (reaction_effect _ _ _ _ _ _ _ Hre) as [Hs [tr [Htr [[Hp Hz] | [_ [_ [_ Hc]]]]]]];
      [|discriminate].
    split; [now apply callbacks_eta|]. rewrite Htr, sends_app, Hz. lia.
  - discriminate.
  - discriminate.
Qed.

Lemma handle_raise_no_effect_witness :
  fst (handle (Unknown r3 (reaction pin_emoji))
         (env_of (world_of NoAttr AttrNone RoomSendResponse (fun _ => JoinResponse))) live)
    = inl AttributeError /\
  st (snd (handle (Unknown r3 (reaction pin_emoji))
         (env_of (world_of NoAttr AttrNone RoomSendResponse (fun _ => JoinResponse))) live))
    = st live /\
  sends (trace (snd (handle (Unknown r3 (reaction pin_emoji))
         (env_of (world_of NoAttr AttrNone RoomSendResponse (fun _ => JoinResponse))) live)))
    = sends (trace live).
Proof.
  assert (H : fst (handle (Unknown r3 (reaction pin_emoji))
         (env_of (world_of NoAttr AttrNone RoomSendResponse (fun _ => JoinResponse))) live)
    = inl AttributeError) by (vm_compute; reflexivity).
  split; [exact H | exact (handle_raise_no_effect _ _ _ _ H)].
Defined.

(** X5. Every callback adds as many ids to the ledger as it sends
    messages: the ledger size minus the number of sends is invariant. *)
Theorem handle_ledger_counts_sends i e m :
  let m' := snd (handle i e m) in
  (length (pinned (st m')) + sends (trace m) = length (pinned (st m)) + sends (trace m'))%nat.
Proof.
  cbv zeta. destruct i as [room ev | room ev | room ev |]; simpl.
  - unfold invite. destruct (join_loop_shape (room_id room) 3 e m) as [msgs [tail [Hrun Ht]]].
    rewrite Hrun. simpl. rewrite sends_app, sends_failed_rounds; [lia|].
    destruct Ht as [[-> _] | [-> _]]; auto.
  - destruct (unknown room ev e m) as [r m'] eqn:H. simpl.
    destruct (unknown_effect _ _ _ _ _ _ H) as [-> | [id [_ Hre]]]; [lia|].
    destruct (reaction_effect _ _ _ _ _ _ _ Hre)
      as [_ [tr [Htr [[Hp Hz] | [Hin [Hadd [Hone _]]]]]]];
      rewrite Htr, sends_app.
    + rewrite Hp, Hz. lia.
    + rewrite (py_set_add_fresh _ _ _ Hin Hadd), length_app, Hone. simpl. lia.
  - lia.
  - lia.
Qed.

(** X6. Every message any callback sends goes to the configured pins room,
    as an [m.room.message] of msgtype [m.text] with format
    [org.matrix.custom.html]. *)
Theorem handle_sends_to_pins_room i e m :
  exists tr, trace (snd (handle i e m)) = trace m ++ tr /\
  forall a, In a tr -> is_send a = true ->
    exists c res, a = ASend (pins_room (cfg e)) (lit "m.room.message") c res /\
      c_msgtype c = lit "m.text" /\ c_format c = lit "org.matrix.custom.html".
Proof.
  destruct i as [room ev | room ev | room ev |]; simpl.
  - unfold invite. destruct (join_loop_shape (room_id room) 3 e m) as [msgs [tail [Hrun Ht]]].
    rewrite Hrun. eexists. split; [reflexivity|]. intros a Hin Hs.
    rewrite (sends_zero_no_send _ _ (sends_failed_rounds (room_id room) msgs tail
               ltac:(destruct Ht as [[-> _] | [-> _]]; auto)) Hin) in Hs.
    discriminate.
  - destruct (unknown room ev e m) as [r m'] eqn:H. simpl.
    destruct (unknown_effect _ _ _ _ _ _ H) as [-> | [id [_ Hre]]].
    + exists []. rewrite app_nil_r. split; [reflexivity | intros a []].
    + destruct (PeanoNat.Nat.eq_dec (sends (trace m')) (sends (trace m))) as [Heq | Hne].
      * destruct (reaction_effect _ _ _ _ _ _ _ Hre)
          as [_ [tr [Htr [[_ Hz] | [_ [_ [Hone _]]]]]]].
        -- exists tr. split; [exact Htr|]. intros a Hin Hs.
           rewrite (sends_zero_no_send _ _ Hz Hin) in Hs. discriminate.
        -- rewrite Htr, sends_app, Hone in Heq. lia.
      * destruct (reaction_sent _ _ _ _ _ _ _ Hre Hne)
          as [_ [_ [sender [b [fb [res [_ [_ [_ [_ [_ [_ Htr]]]]]]]]]]]].
        eexists. split; [exact Htr|]. intros a [<- | [<- | []]] Hs; [discriminate|].
        eexists _, res. split; [reflexivity | split; reflexivity].
  - exists []. rewrite app_nil_r. split; [reflexivity | intros a []].
  - exists []. rewrite app_nil_r. split; [reflexivity | intros a []].
Qed.

(** X7. [unknown] contacts the client at all only for an [m.reaction]
    event whose relation dict has a truthy [event_id] and the [rel_type]
    [m.annotation]; for any other event the trace is left as it was. *)
Theorem unknown_contacts_only_annotations room ev e m :
  trace (snd (unknown room ev e m)) <> trace m ->
  ev_type ev = lit "m.reaction" /\
  exists rd id, relation_dict_of (source ev) = inr rd /\
    py_get rd (lit "event_id") JNull = inr id /\ py_truthy id = true /\
    py_get rd (lit "rel_type") JNull = inr (JStr (lit "m.annotation")).
Proof.
  unfold unknown, bind, lift, ret. intros Hne.
  destruct (pystr_eqb (ev_type ev) (lit "m.reaction")) eqn:E1; [|contradiction].
  split; [now apply pystr_eqb_true|].
  destruct (relation_dict_of (source ev)) as [x|rd] eqn:E2; [contradiction|].
  destruct (py_get rd (lit "event_id") JNull) as [x|id] eqn:E3; [contradiction|].
  destruct (py_truthy id) eqn:E4; [|contradiction].
  destruct (py_get rd (lit "rel_type") JNull) as [x|rt] eqn:E5; [contradiction|].
  destruct (py_eq_str rt (lit "m.annotation")) eqn:E6; [|contradiction].
  rewrite (py_eq_str_true _ _ E6) in E5. exists rd, id. repeat split; auto.
Qed.

Lemma unknown_contacts_only_annotations_witness :
  trace (snd (unknown r3 (reaction pin_emoji) (text_env (lit "hello") RoomSendResponse) live))
    <> trace live /\
  ev_type (reaction pin_emoji) = lit "m.reaction" /\
  exists rd id, relation_dict_of (source (reaction pin_emoji)) = inr rd /\
    py_get rd (lit "event_id") JNull = inr id /\ py_truthy id = true /\
    py_get rd (lit "rel_type") JNull = inr (JStr (lit "m.annotation")).
Proof.
  assert (H : trace (snd (unknown r3 (reaction pin_emoji)
                            (text_env (lit "hello") RoomSendResponse) live))
              <> trace live) by (vm_compute; discriminate).
  split; [exact H | exact (unknown_contacts_only_annotations _ _ _ _ H)].
Defined.

(** X8. [unknown] reads an event only through its type and the
    [content] entry of its source: two events that agree on these are
    handled identically, whatever their [sender], [event_id] or other
    top-level keys. No permission check is made on the reaction's sender,
    so any room member, the bot's own account included, can pin. *)
Theorem unknown_reads_only_type_and_content room ev ev' e m :
  ev_type ev = ev_type ev' ->
  dict_lookup (lit "content") (source ev) = dict_lookup (lit "content") (source ev') ->
  unknown room ev e m = unknown room ev' e m.
Proof.
  intros Ht Hc.
  assert (Hr : relation_dict_of (source ev) = relation_dict_of (source ev'))
    by (unfold relation_dict_of, py_get; now rewrite Hc).
  assert (Hk : reaction_key (source ev) = reaction_key (source ev'))
    by (unfold reaction_key; now rewrite Hr).
  unfold unknown, _reaction. now rewrite Ht, Hr, Hk.
Qed.

Lemma unknown_reads_only_type_and_content_witness :
  let ev' := {| ev_type := lit "m.reaction"; ev_sender := user_id config0;
                source := (lit "sender", JStr (user_id config0))
                          :: (lit "event_id", JStr (lit "$r2"))
                          :: source (reaction pin_emoji) |} in
  ev_type (reaction pin_emoji) = ev_type ev' /\
  dict_lookup (lit "content") (source (reaction pin_emoji))
    = dict_lookup (lit "content") (source ev') /\
  unknown r3 (reaction pin_emoji) (text_env (lit "hello") RoomSendResponse) live =
  unknown r3 ev' (text_env (lit "hello") RoomSendResponse) live.
Proof.
  cbv zeta. split; [reflexivity | split; [reflexivity|]].
  apply unknown_reads_only_type_and_content; reflexivity.
Defined.
